(** * The PennyLane lab bootstrap script

    A shallow embedding of [src/setup.py] (the provisioning script) and of the
    text of [src/verify_install.py] (the shipped verification script),
    followed by the properties of its control flow.

    The script is sequential Python: it reads a few facts about the running
    interpreter, prints, spawns subprocesses, and writes one file.  It is
    embedded in a state-and-exception monad over an event trace and a file
    store; everything the script reads from its surroundings is a field of
    the record [process]. *)

From Stdlib Require Import ZArith String Ascii List Lia DecimalString.
From stdpp Require Import base option gmap strings list.
Import ListNotations.

Open Scope string_scope.
Open Scope list_scope.
Open Scope Z_scope.

(** ** Text helpers *)

(** The three characters that the string literals below cannot hold
    directly: the double quote, the line feed and the backslash. *)
Definition dq : string := String "034"%char EmptyString.
Definition nl : string := String "010"%char EmptyString.
Definition bsl : string := String "092"%char EmptyString.

(** Python renders an [int] inside an f-string in decimal. *)
Definition str_of_int (z : Z) : string := NilZero.string_of_int (Z.to_int z).

(** A text given line by line, every line terminated by a line feed. *)
Definition terminated_lines (ls : list string) : string :=
  fold_right (fun l rest => l +:+ nl +:+ rest) EmptyString ls.

(** A text given line by line, the lines separated by line feeds (no line
    feed after the last one). *)
Definition separated_lines (ls : list string) : string :=
  String.concat nl ls.

(** ** The running process, as the script observes it *)

(** [sys.version_info], restricted to the three fields the script reads. *)
Record version_info := {
  major : Z;
  minor : Z;
  micro : Z
}.

Record process := {
  (** [sys.prefix] *)
  sys_prefix : string;
  (** the attribute [sys.base_prefix]; [None] when the interpreter has no
      such attribute, the case [getattr] guards against *)
  sys_base_prefix : option string;
  (** [sys.executable] *)
  sys_executable : string;
  (** [sys.version_info] *)
  sys_version_info : version_info;
  (** [os.environ] *)
  os_environ : gmap string string;
  (** [shutil.which] *)
  shutil_which : string -> option string;
  (** [platform.system()] *)
  platform_system : string;
  (** what a spawned command does: its return code and the file store it
      leaves behind, from its argument vector and the file store it finds;
      the command is taken to start, so that [check_call] either returns or
      raises [CalledProcessError] *)
  spawn : list string -> gmap string string -> Z * gmap string string
}.

(** ** Effects *)

Inductive event :=
| Stdout (text : string)
    (** [print(text)]; the line terminator that [print] adds is left out *)
| Subprocess (argv : list string) (rc : Z)
    (** [subprocess.check_call(argv)], whose child returned [rc] *)
| FileWrite (path : string) (data : string).
    (** [f.write(data)] on the file opened at [path] *)

Record state := {
  trace : list event;   (** what has happened so far, oldest first *)
  files : gmap string string   (** the file store: path to content *)
}.

(** The two exceptions that occur in the script. *)
Inductive exn :=
| SystemExit (code : Z)
| CalledProcessError (returncode : Z) (cmd : list string).

Inductive outcome (A : Type) :=
| Returned (a : A)
| Raised (e : exn).
Arguments Returned {A} a.
Arguments Raised {A} e.

Definition M (A : Type) : Type := state -> outcome A * state.

#[export] Instance M_ret : MRet M := fun A a s => (Returned a, s).

#[export] Instance M_bind : MBind M := fun A B k m s =>
  match m s with
  | (Returned a, s') => k a s'
  | (Raised e, s') => (Raised e, s')
  end.

Definition raise {A} (e : exn) : M A := fun s => (Raised e, s).

Definition emit (e : event) : M unit := fun s =>
  (Returned tt, {| trace := trace s ++ [e]; files := files s |}).

(** [try: body / except subprocess.CalledProcessError: handler].  Any other
    exception, [SystemExit] included, passes through. *)
Definition try_except_CalledProcessError {A} (body handler : M A) : M A :=
  fun s =>
    match body s with
    | (Raised (CalledProcessError _ _), s') => handler s'
    | r => r
    end.

(** The exit status of the interpreter once the script has run: 0 when it
    runs to its end, the argument of [sys.exit], and 1 for an exception
    nobody caught. *)
Definition exit_status {A} (o : outcome A) : Z :=
  match o with
  | Returned _ => 0
  | Raised (SystemExit code) => code
  | Raised (CalledProcessError _ _) => 1
  end.

(** Truth value of an [Optional[str]], as [not] and [if] take it. *)
Definition truthy (o : option string) : bool :=
  match o with
  | None => false
  | Some EmptyString => false
  | Some (String _ _) => true
  end.

(** *** Projections of a trace *)

Definition subprocess_calls (t : list event) : list (list string) :=
  omap (fun e => match e with Subprocess argv _ => Some argv | _ => None end) t.

Definition file_writes (t : list event) : list (string * string) :=
  omap (fun e => match e with FileWrite p d => Some (p, d) | _ => None end) t.

Definition printed (t : list event) : list string :=
  omap (fun e => match e with Stdout x => Some x | _ => None end) t.

Definition is_action (e : event) : bool :=
  match e with Stdout _ => false | _ => true end.

(** The trace without what was printed: the actions on the outside world. *)
Definition actions (t : list event) : list event := List.filter is_action t.

(** ** Primitives of the Python runtime *)

Definition print (text : string) : M unit := emit (Stdout text).

(** [sys.exit(code)] raises [SystemExit]. *)
Definition sys_exit {A} (code : Z) : M A := raise (SystemExit code).

(** [open(path, "w")]: the file is created or cut to length zero; the
    handle is represented by its path.  The file is taken to open: a failure
    of [open] is outside the model. *)
Definition open_w (path : string) : M string := fun s =>
  (Returned path,
   {| trace := trace s; files := <[path := EmptyString]> (files s) |}).

(** [f.write(data)] on a handle just opened: the data goes at the end of
    what the file holds. *)
Definition file_write (f : string) (data : string) : M unit := fun s =>
  (Returned tt,
   {| trace := trace s ++ [FileWrite f data];
      files := alter (fun held => held +:+ data) f (files s) |}).

(** [subprocess.check_call(argv)] in process [w]: waits for the child and
    raises [CalledProcessError] when its return code is not zero.  The
    command is taken to start: a failure to start it is outside the model. *)
Definition check_call (w : process) (argv : list string) : M unit := fun s =>
  let '(rc, fs) := spawn w argv (files s) in
  let s' := {| trace := trace s ++ [Subprocess argv rc]; files := fs |} in
  if rc =? 0 then (Returned tt, s') else (Raised (CalledProcessError rc argv), s').

(** ** [setup.py] *)

(** *** Configuration *)

Definition ENV_NAME : string := "pennylane_lab".
Definition REQUIRED_PY_MAJOR : Z := 3.
Definition REQUIRED_PY_MINOR : Z := 10.
Definition TARGET_PY_VERSION : string := "3.13".

Definition PIP_PACKAGES : list string :=
  [ "pennylane>=0.38";
    "pennylane-qiskit";
    "numpy>=2.3.5";
    "stim";
    "matplotlib";
    "jupyter" ].

(** *** Messages *)

Definition print_step (message : string) : M unit :=
  print (nl +:+ "[+] " +:+ message).

Definition print_warn (message : string) : M unit :=
  print (nl +:+ "[!] WARNING: " +:+ message).

Definition print_error (message : string) : M unit :=
  print (nl +:+ "[!!] ERROR: " +:+ message).

(** *** The text of the verification script

    The triple-quoted literal assigned to [code]: a line feed right after
    the opening quotes, then 30 lines, each ended by a line feed.  The
    escape [\\n] of the Python literal is a backslash followed by [n]. *)
Definition code : string :=
  terminated_lines
  [ EmptyString;
    "import pennylane as qml";
    "import matplotlib.pyplot as plt";
    "import sys";
    EmptyString;
    "print(f" +:+ dq +:+ bsl +:+ "nPython Version: {sys.version.split()[0]}" +:+ dq +:+ ")";
    "print(f" +:+ dq +:+ "PennyLane Version: {qml.version()}" +:+ dq +:+ ")";
    "def main():";
    "    # 1. Device Creation Check";
    "    try:";
    "        dev = qml.device(" +:+ dq +:+ "default.qubit" +:+ dq +:+ ", wires=2)";
    "        print(" +:+ dq +:+ "Device created successfully." +:+ dq +:+ ")";
    "    except Exception as e:";
    "        print(f" +:+ dq +:+ "Error creating device: {e}" +:+ dq +:+ ")";
    "        sys.exit(1)";
    EmptyString;
    "    # 2. Circuit Execution Check";
    "    @qml.qnode(dev)";
    "    def circuit(theta):";
    "        qml.RX(theta, wires=0)";
    "        qml.CNOT(wires=[0, 1])";
    "        return qml.expval(qml.PauliZ(0))";
    EmptyString;
    "    try:";
    "        result = circuit(0.5)";
    "        print(f" +:+ dq +:+ "Circuit execution result: {result}" +:+ dq +:+ ")";
    "        print(" +:+ dq +:+ "SUCCESS: Environment is ready for the lab." +:+ dq +:+ ")";
    "    except Exception as e:";
    "        print(f" +:+ dq +:+ "Error running circuit: {e}" +:+ dq +:+ ")";
    "if __name__ == " +:+ dq +:+ "__main__" +:+ dq +:+ ":";
    "    main()" ].

Section Setup.

(** The process that runs the script. *)
Variable w : process.

(** [getattr(sys, "base_prefix", sys.prefix)] *)
Definition base_prefix_or_prefix : string :=
  default (sys_prefix w) (sys_base_prefix w).

Definition is_virtual_env : bool :=
  let is_venv := bool_decide (sys_prefix w <> base_prefix_or_prefix) in
  let is_conda := bool_decide (os_environ w !! "CONDA_DEFAULT_ENV" <> None) in
  is_venv || is_conda.

Definition check_python_version : M unit :=
  let major := major (sys_version_info w) in
  let minor := minor (sys_version_info w) in
  print ("    Current Python: " +:+ str_of_int major +:+ "." +:+ str_of_int minor
         +:+ "." +:+ str_of_int (micro (sys_version_info w)));;
  if (major <? REQUIRED_PY_MAJOR)
     || ((major =? REQUIRED_PY_MAJOR) && (minor <? REQUIRED_PY_MINOR))
  then
    print_error ("PennyLane requires Python " +:+ str_of_int REQUIRED_PY_MAJOR +:+ "."
                 +:+ str_of_int REQUIRED_PY_MINOR +:+ "+. You are running "
                 +:+ str_of_int major +:+ "." +:+ str_of_int minor +:+ ".");;
    sys_exit 1
  else mret tt.

(** The argument vector of the in-place installer. *)
Definition pip_cmd_current_env : list string :=
  [sys_executable w; "-m"; "pip"; "install"] ++ PIP_PACKAGES.

Definition install_packages_current_env : M unit :=
  print_step "Installing packages into CURRENT active environment...";;
  let cmd := pip_cmd_current_env in
  try_except_CalledProcessError
    (check_call w cmd;;
     print "    Success: Packages installed.")
    (print_error "Failed to install packages via pip.";;
     sys_exit 1).

(** The argument vector of the environment creation. *)
Definition conda_create_cmd : list string :=
  ["conda"; "create"; "-n"; ENV_NAME; "python=" +:+ TARGET_PY_VERSION; "-y"].

Definition create_conda_env_if_needed : M bool :=
  print_step "Checking for existing environment...";;
  if is_virtual_env then
    print ("    Active environment detected (" +:+ sys_prefix w +:+ ").");;
    print "    Skipping new environment creation.";;
    mret false
  else
    print "    No active virtual environment detected.";;
    (if negb (truthy (shutil_which w "conda")) then
       print_error "No active venv found AND Conda is not installed.";;
       print "    Please either:";;
       print "    1. Create a venv (PyCharm/uv) and run this script inside it.";;
       print "    2. Install Anaconda/Miniconda.";;
       sys_exit 1
     else mret tt);;
    print_step ("Creating fresh Conda environment '" +:+ ENV_NAME
                +:+ "' with Python " +:+ TARGET_PY_VERSION +:+ "...");;
    try_except_CalledProcessError
      (check_call w conda_create_cmd)
      (print_error "Failed to create Conda environment.";;
       sys_exit 1);;
    mret true.

(** The argument vector of the installer routed through the manager. *)
Definition pip_cmd_conda_env : list string :=
  ["conda"; "run"; "-n"; ENV_NAME; "pip"; "install"] ++ PIP_PACKAGES.

Definition install_packages_conda_env : M unit :=
  print_step ("Installing packages into Conda env '" +:+ ENV_NAME +:+ "'...");;
  let pip_cmd := pip_cmd_conda_env in
  try_except_CalledProcessError
    (check_call w pip_cmd)
    (print_error "Failed to install packages into Conda env.";;
     sys_exit 1).

Definition create_verification_script : M unit :=
  print_step "Creating verification script (verify_install.py)...";;
  f ← open_w "verify_install.py";
  file_write f code.

(** The first branch of [main]: an environment is already active. *)
Definition main_current_env : M unit :=
  print "Status: Running inside an active virtual environment.";;
  check_python_version;;
  install_packages_current_env;;
  create_verification_script;;
  print_step "SETUP COMPLETE (In current environment)";;
  print "Run: python verify_install.py".

(** What [main] does with the answer of the creator. *)
Definition main_after_create (created_new : bool) : M unit :=
  if created_new then
    install_packages_conda_env;;
    create_verification_script;;
    print_step "SETUP COMPLETE (New Conda Env Created)";;
    (if String.eqb (platform_system w) "Windows" then
       print ("Run: conda activate " +:+ ENV_NAME)
     else
       print ("Run: conda activate " +:+ ENV_NAME));;
    print "Then: python verify_install.py"
  else mret tt.

(** The second branch of [main]: the fallback to a new Conda
    environment. *)
Definition main_conda_flow : M unit :=
  print "Status: System python detected (unsafe). initializing Conda flow.";;
  check_python_version;;
  created_new ← create_conda_env_if_needed;
  main_after_create created_new.

Definition main : M unit :=
  print "=========================================";;
  print "   PennyLane Lab Setup (Smart Mode)";;
  print "=========================================";;
  if is_virtual_env then main_current_env else main_conda_flow.

(** A run of the script, from the file store [fs] it starts in. *)
Definition run (fs : gmap string string) : outcome unit * state :=
  main {| trace := []; files := fs |}.

End Setup.

(** ** [verify_install.py], the copy shipped in the repository *)

Module VerifyInstall.

(** The content of the file, line by line.  Its last line, the call of
    [main], is not followed by a line feed. *)
Definition text : string :=
  separated_lines
  [ EmptyString;
    "import pennylane as qml";
    "import matplotlib.pyplot as plt";
    "import sys";
    EmptyString;
    "print(f" +:+ dq +:+ bsl +:+ "nPython Version: {sys.version.split()[0]}" +:+ dq +:+ ")";
    "print(f" +:+ dq +:+ "PennyLane Version: {qml.version()}" +:+ dq +:+ ")";
    "def main():";
    "    # 1. Device Creation Check";
    "    try:";
    "        dev = qml.device(" +:+ dq +:+ "default.qubit" +:+ dq +:+ ", wires=2)";
    "        print(" +:+ dq +:+ "Device created successfully." +:+ dq +:+ ")";
    "    except Exception as e:";
    "        print(f" +:+ dq +:+ "Error creating device: {e}" +:+ dq +:+ ")";
    "        sys.exit(1)";
    EmptyString;
    "    # 2. Circuit Execution Check";
    "    @qml.qnode(dev)";
    "    def circuit(theta):";
    "        qml.RX(theta, wires=0)";
    "        qml.CNOT(wires=[0, 1])";
    "        return qml.expval(qml.PauliZ(0))";
    EmptyString;
    "    try:";
    "        result = circuit(0.5)";
    "        print(f" +:+ dq +:+ "Circuit execution result: {result}" +:+ dq +:+ ")";
    "        print(" +:+ dq +:+ "SUCCESS: Environment is ready for the lab." +:+ dq +:+ ")";
    "    except Exception as e:";
    "        print(f" +:+ dq +:+ "Error running circuit: {e}" +:+ dq +:+ ")";
    "if __name__ == " +:+ dq +:+ "__main__" +:+ dq +:+ ":";
    "    main()" ].

End VerifyInstall.

(** ** The vocabulary of the specification *)

Module Spec.

(** Signal (a): the install prefix differs from the base prefix. *)
Definition prefix_differs (w : process) : Prop :=
  sys_prefix w <> base_prefix_or_prefix w.

(** Signal (b) as the specification words it: the marker variable is
    present and non-empty in the process environment. *)
Definition marker_present_and_nonempty (w : process) : Prop :=
  exists value, os_environ w !! "CONDA_DEFAULT_ENV" = Some value
                /\ value <> EmptyString.

(** Signal (b) as a plain presence test. *)
Definition marker_present (w : process) : Prop :=
  is_Some (os_environ w !! "CONDA_DEFAULT_ENV").

(** Versions are compared on (major, minor), major first. *)
Definition version_at_least (v : version_info) (maj min : Z) : Prop :=
  maj < major v \/ (major v = maj /\ min <= minor v).

Definition version_below (v : version_info) (maj min : Z) : Prop :=
  major v < maj \/ (major v = maj /\ minor v < min).





(** The two remediations suggested when no environment manager is found. *)
Definition remediations : list string :=
  ["    1. Create a venv (PyCharm/uv) and run this script inside it.";
   "    2. Install Anaconda/Miniconda."].

End Spec.

(** ** Sample processes *)

Module Sample.

Definition py_3_12 : version_info := {| major := 3; minor := 12; micro := 1 |}.
Definition py_3_9 : version_info := {| major := 3; minor := 9; micro := 18 |}.

(** A machine on which every spawned command succeeds and leaves the file
    store as it was. *)
Definition machine
    (prefix : string) (env : gmap string string) (v : version_info)
    (conda : option string) : process :=
  {| sys_prefix := prefix;
     sys_base_prefix := Some "/usr";
     sys_executable := prefix +:+ "/bin/python3";
     sys_version_info := v;
     os_environ := env;
     shutil_which := fun name => if String.eqb name "conda" then conda else None;
     platform_system := "Linux";
     spawn := fun _ fs => (0, fs) |}.

(** System interpreter, no marker variable. *)
Definition system_python (v : version_info) (conda : option string) : process :=
  machine "/usr" ∅ v conda.

(** Inside a venv. *)
Definition in_venv (v : version_info) : process :=
  machine "/home/lab/.venv" ∅ v None.

(** System interpreter, with the marker variable set to the empty string. *)
Definition empty_marker : process :=
  machine "/usr" {[ "CONDA_DEFAULT_ENV" := EmptyString ]} py_3_12 None.

Definition conda_path : option string := Some "/opt/conda/bin/conda".

(** A file store that already holds a verification script. *)
Definition stale_files : gmap string string :=
  {[ "verify_install.py" := "print('old')" ]}.

End Sample.

(** ** Vocabulary for the further properties *)

Module Account.

(** The file store after the commands [calls] have run one after the other
    from [fs], each finding what the one before left. *)
Definition replay (w : process) (calls : list (list string))
    (fs : gmap string string) : gmap string string :=
  fold_left (fun store argv => (spawn w argv store).2) calls fs.

(** The lines that [print_error] produces. *)
Definition is_error_line (line : string) : bool :=
  String.prefix (nl +:+ "[!!] ERROR: ") line.

(** The lines that [print_warn] produces. *)
Definition is_warning_line (line : string) : bool :=
  String.prefix (nl +:+ "[!] WARNING: ") line.

(** The two completion messages of [main]. *)
Definition completion_messages : list string :=
  [nl +:+ "[+] SETUP COMPLETE (In current environment)";
   nl +:+ "[+] SETUP COMPLETE (New Conda Env Created)"].

(** The same process on another platform. *)
Definition on_platform (w : process) (name : string) : process :=
  {| sys_prefix := sys_prefix w;
     sys_base_prefix := sys_base_prefix w;
     sys_executable := sys_executable w;
     sys_version_info := sys_version_info w;
     os_environ := os_environ w;
     shutil_which := shutil_which w;
     platform_system := name;
     spawn := spawn w |}.

End Account.

Module Sample2.

(** A machine like [Sample.machine] on which the commands whose argument
    vector is in [failing] return 2, the others 0; every command leaves a
    log file behind. *)
Definition flaky (prefix : string) (conda : option string)
    (failing : list (list string)) : process :=
  {| sys_prefix := prefix;
     sys_base_prefix := Some "/usr";
     sys_executable := prefix +:+ "/bin/python3";
     sys_version_info := Sample.py_3_12;
     os_environ := ∅;
     shutil_which := fun name => if String.eqb name "conda" then conda else None;
     platform_system := "Linux";
     spawn := fun argv fs =>
       (if bool_decide (argv ∈ failing) then 2 else 0,
        <["command.log" := String.concat " " argv]> fs) |}.

(** An interpreter without the attribute [base_prefix]. *)
Definition legacy (env : gmap string string) : process :=
  {| sys_prefix := "/usr";
     sys_base_prefix := None;
     sys_executable := "/usr/bin/python3";
     sys_version_info := Sample.py_3_12;
     os_environ := env;
     shutil_which := fun _ => None;
     platform_system := "Linux";
     spawn := fun _ fs => (0, fs) |}.

End Sample2.

(** ** [verify_install.py], run as a script

    The script calls into PennyLane; what those calls do is not part of the
    repository, so each call is a field of the record [lab]: it returns, or
    it raises an exception derived from [Exception], given by its text.  The
    script is a function from the lab to the lines it prints and the way it
    ends. *)

Module VerifyRun.

Inductive attempt (A : Type) :=
| Returns (a : A)
| Raises (text : string).
Arguments Returns {A} a.
Arguments Raises {A} text.

Record lab := {
  (** [import pennylane as qml] *)
  import_pennylane : attempt unit;
  (** [import matplotlib.pyplot as plt] *)
  import_pyplot : attempt unit;
  (** [sys.version.split()] *)
  sys_version_words : list string;
  (** [qml.version()] *)
  qml_version : attempt string;
  (** [qml.device("default.qubit", wires=2)] *)
  qml_device : attempt unit;
  (** the decoration of [circuit] by [qml.qnode(dev)] *)
  qml_qnode : attempt unit;
  (** [circuit(0.5)], rendered as the f-string renders it *)
  circuit : attempt string
}.

Inductive ending :=
| Finished                    (** the script ran to its end *)
| SysExit (code : Z)          (** [sys.exit(code)] *)
| Traceback (text : string).  (** an exception nobody caught *)

Definition exit_status (e : ending) : Z :=
  match e with
  | Finished => 0
  | SysExit code => code
  | Traceback _ => 1
  end.

Definition success_line : string := "SUCCESS: Environment is ready for the lab.".

(** The function [main] of the script. *)
Definition main (l : lab) : list string * ending :=
  match qml_device l with
  | Raises e => (["Error creating device: " +:+ e], SysExit 1)
  | Returns _ =>
      let out := ["Device created successfully."] in
      match qml_qnode l with
      | Raises e => (out, Traceback e)
      | Returns _ =>
          match circuit l with
          | Returns result =>
              (out ++ ["Circuit execution result: " +:+ result; success_line],
               Finished)
          | Raises e => (out ++ ["Error running circuit: " +:+ e], Finished)
          end
      end
  end.

(** The module, top to bottom, with [__name__] equal to ["__main__"]. *)
Definition script (l : lab) : list string * ending :=
  match import_pennylane l with
  | Raises e => ([], Traceback e)
  | Returns _ =>
      match import_pyplot l with
      | Raises e => ([], Traceback e)
      | Returns _ =>
          match sys_version_words l with
          | [] => ([], Traceback "list index out of range")
          | version :: _ =>
              let out := [nl +:+ "Python Version: " +:+ version] in
              match qml_version l with
              | Raises e => (out, Traceback e)
              | Returns release =>
                  let out := out ++ ["PennyLane Version: " +:+ release] in
                  let (lines, e) := main l in
                  (out ++ lines, e)
              end
          end
      end
  end.

(** Every call into the libraries returns. *)
Definition all_return (l : lab) : Prop :=
  import_pennylane l = Returns tt
  /\ import_pyplot l = Returns tt
  /\ sys_version_words l <> []
  /\ (exists release, qml_version l = Returns release)
  /\ qml_device l = Returns tt
  /\ qml_qnode l = Returns tt
  /\ exists result, circuit l = Returns result.

(** A working installation, and one whose simulator fails on the circuit. *)
Definition working : lab :=
  {| import_pennylane := Returns tt;
     import_pyplot := Returns tt;
     sys_version_words := ["3.13.0"; "(main)"];
     qml_version := Returns "0.38.0";
     qml_device := Returns tt;
     qml_qnode := Returns tt;
     circuit := Returns "0.8775825618903728" |}.

Definition broken_simulator : lab :=
  {| import_pennylane := Returns tt;
     import_pyplot := Returns tt;
     sys_version_words := ["3.13.0"; "(main)"];
     qml_version := Returns "0.38.0";
     qml_device := Returns tt;
     qml_qnode := Returns tt;
     circuit := Raises "simulation failed" |}.

Definition no_device : lab :=
  {| import_pennylane := Returns tt;
     import_pyplot := Returns tt;
     sys_version_words := ["3.13.0"; "(main)"];
     qml_version := Returns "0.38.0";
     qml_device := Raises "Device default.qubit does not exist.";
     qml_qnode := Returns tt;
     circuit := Returns "0.8775825618903728" |}.

End VerifyRun.

(** * Properties *)

(** ** Reasoning support *)

Ltac unfold_script :=
  unfold run, main, main_current_env, main_conda_flow, main_after_create,
    create_verification_script, install_packages_conda_env,
    create_conda_env_if_needed, install_packages_current_env,
    check_python_version, try_except_CalledProcessError, check_call,
    file_write, open_w, print_step, print_error, sys_exit, print, emit, raise,
    mbind, M_bind, mret, M_ret in *.

(** Command lines and texts stay folded while a run is simplified. *)
#[local] Arguments conda_create_cmd : simpl never.
#[local] Arguments pip_cmd_current_env : simpl never.
#[local] Arguments pip_cmd_conda_env : simpl never.
#[local] Arguments code : simpl never.

(** The test of [check_python_version] is the comparison of (major, minor)
    with (3, 10), major first. *)
Lemma version_test_below (v : version_info) :
  Spec.version_below v 3 10 ->
  (major v <? REQUIRED_PY_MAJOR)
  || ((major v =? REQUIRED_PY_MAJOR) && (minor v <? REQUIRED_PY_MINOR)) = true.
Proof.
  unfold Spec.version_below, REQUIRED_PY_MAJOR, REQUIRED_PY_MINOR.
  intros [Hlt | [Heq Hlt]].
  - apply Z.ltb_lt in Hlt. now rewrite Hlt.
  - apply Z.eqb_eq in Heq. apply Z.ltb_lt in Hlt. rewrite Heq, Hlt.
    apply orb_true_r.
Qed.

Lemma version_test_at_least (v : version_info) :
  Spec.version_at_least v 3 10 ->
  (major v <? REQUIRED_PY_MAJOR)
  || ((major v =? REQUIRED_PY_MAJOR) && (minor v <? REQUIRED_PY_MINOR)) = false.
Proof.
  unfold Spec.version_at_least, REQUIRED_PY_MAJOR, REQUIRED_PY_MINOR.
  intros Hge. apply orb_false_iff. split.
  - apply Z.ltb_ge. lia.
  - apply andb_false_iff.
    destruct Hge as [Hgt | [Heq Hle]].
    + left. apply Z.eqb_neq. lia.
    + right. apply Z.ltb_ge. lia.
Qed.

Lemma version_below_or_at_least (v : version_info) (maj min : Z) :
  Spec.version_below v maj min \/ Spec.version_at_least v maj min.
Proof. unfold Spec.version_below, Spec.version_at_least. lia. Qed.

Lemma is_virtual_env_true (w : process) :
  is_virtual_env w = true <-> Spec.prefix_differs w \/ Spec.marker_present w.
Proof.
  unfold is_virtual_env, Spec.prefix_differs, Spec.marker_present.
  rewrite orb_true_iff, !bool_decide_eq_true, not_eq_None_Some. tauto.
Qed.

(** ** The environment detector *)

(** C1, as amended.  The detector answers [true] exactly when the install
    prefix differs from the base prefix or the variable CONDA_DEFAULT_ENV is
    present in the environment, whatever its value, the empty string
    included; it answers [false] exactly when both signals are false, and
    its answer is the disjunction of the two signals. *)
Theorem is_virtual_env_is_or_of_signals (w : process) :
  (is_virtual_env w = true <-> Spec.prefix_differs w \/ Spec.marker_present w)
  /\ (is_virtual_env w = false
      <-> ~ Spec.prefix_differs w /\ ~ Spec.marker_present w)
  /\ is_virtual_env w
     = bool_decide (Spec.prefix_differs w) || bool_decide (Spec.marker_present w).
Proof.
  pose proof (is_virtual_env_true w) as Htrue.
  split; [exact Htrue | split].
  - rewrite <- not_true_iff_false, Htrue. tauto.
  - unfold is_virtual_env, Spec.prefix_differs, Spec.marker_present.
    f_equal. apply bool_decide_ext. apply not_eq_None_Some.
Qed.

(** C1 as stated fails: with the interpreter at its base prefix and
    CONDA_DEFAULT_ENV set to the empty string, neither the prefix signal nor
    the signal (present and non-empty) holds, and the detector answers
    [true]. *)
Lemma is_virtual_env_empty_marker :
  is_virtual_env Sample.empty_marker = true
  /\ ~ Spec.prefix_differs Sample.empty_marker
  /\ ~ Spec.marker_present_and_nonempty Sample.empty_marker.
Proof.
  split; [reflexivity | split].
  - intros Hdiff. apply Hdiff. reflexivity.
  - intros (value & Hlook & Hne). vm_compute in Hlook. congruence.
Qed.

(** ** The emitted text and the shipped file *)

(** C10, as amended.  The emitted text is the shipped file followed by one
    line feed. *)
Theorem code_is_shipped_text_and_line_feed : code = VerifyInstall.text +:+ nl.
Proof. vm_compute. reflexivity. Qed.

(** C10 as stated fails: the emitted text (852 bytes) is not the shipped
    file (851 bytes). *)
Lemma code_is_not_shipped_text :
  code <> VerifyInstall.text
  /\ String.length code = 852%nat
  /\ String.length VerifyInstall.text = 851%nat.
Proof.
  split; [| split; vm_compute; reflexivity].
  intros Heq. apply (f_equal String.length) in Heq.
  vm_compute in Heq. discriminate.
Qed.

(** ** The version gate *)

(** C3.  For every interpreter version with (major, minor) at least (3, 10)
    the gate returns normally, after printing the detected version.  For
    every version below 3.10 the gate prints the detected version, then an
    error, and raises SystemExit(1); the whole run then ends with exit
    status 1, the detected version is among the printed lines, no
    subprocess was spawned, nothing was written and the file store is
    untouched. *)
Theorem check_python_version_gate (w : process) :
  let v := sys_version_info w in
  let detected :=
    "    Current Python: " +:+ str_of_int (major v) +:+ "."
    +:+ str_of_int (minor v) +:+ "." +:+ str_of_int (micro v) in
  (Spec.version_at_least v 3 10 ->
   forall s, check_python_version w s
             = (Returned tt,
                {| trace := trace s ++ [Stdout detected]; files := files s |}))
  /\ (Spec.version_below v 3 10 ->
      (forall s, exists message,
          check_python_version w s
          = (Raised (SystemExit 1),
             {| trace := (trace s ++ [Stdout detected]) ++ [Stdout message];
                files := files s |}))
      /\ forall fs,
          let r := run w fs in
          r.1 = Raised (SystemExit 1)
          /\ exit_status r.1 = 1
          /\ In detected (printed (trace r.2))
          /\ subprocess_calls (trace r.2) = []
          /\ file_writes (trace r.2) = []
          /\ files r.2 = fs).
Proof.
  cbv zeta. split.
  - intros Hge s. unfold_script.
    rewrite (version_test_at_least _ Hge). reflexivity.
  - intros Hlt. pose proof (version_test_below _ Hlt) as Htest. split.
    + intros s. eexists. unfold_script. rewrite Htest. reflexivity.
    + intros fs. unfold_script.
      destruct (is_virtual_env w); cbn; rewrite Htest; cbn; tauto.
Qed.

(** The gate on Python 3.12.1 in a venv, and a run on the system Python
    3.9.18. *)
Lemma check_python_version_gate_witness :
  let fresh := {| trace := []; files := Sample.stale_files |} in
  let old := Sample.system_python Sample.py_3_9 Sample.conda_path in
  (Spec.version_at_least Sample.py_3_12 3 10
   /\ check_python_version (Sample.in_venv Sample.py_3_12) fresh
      = (Returned tt,
         {| trace := [Stdout "    Current Python: 3.12.1"];
            files := Sample.stale_files |}))
  /\ (Spec.version_below Sample.py_3_9 3 10
      /\ exit_status (run old Sample.stale_files).1 = 1
      /\ In "    Current Python: 3.9.18" (printed (trace (run old Sample.stale_files).2))
      /\ subprocess_calls (trace (run old Sample.stale_files).2) = []).
Proof.
  cbv zeta.
  assert (Hge : Spec.version_at_least Sample.py_3_12 3 10) by (right; simpl; lia).
  assert (Hlt : Spec.version_below Sample.py_3_9 3 10) by (right; simpl; lia).
  split; (split; [assumption |]).
  - exact (proj1 (check_python_version_gate (Sample.in_venv Sample.py_3_12)) Hge
             {| trace := []; files := Sample.stale_files |}).
  - destruct (proj2 (check_python_version_gate
                (Sample.system_python Sample.py_3_9 Sample.conda_path)) Hlt)
      as [_ Hrun].
    destruct (Hrun Sample.stale_files) as (_ & Hstatus & Hline & Hcalls & _).
    split; [exact Hstatus | split; [exact Hline | exact Hcalls]].
Defined.

(** ** The in-place path *)

(** C4.  When the detector answers [true] and the version gate passes, the
    run spawns exactly one subprocess, the in-place installer; the
    verification script is written after it, and only when it returned 0;
    the environment creation is never spawned. *)
Theorem isolated_run_spawns_only_installer
    (w : process) (fs : gmap string string) :
  is_virtual_env w = true ->
  Spec.version_at_least (sys_version_info w) 3 10 ->
  let r := run w fs in
  subprocess_calls (trace r.2) = [pip_cmd_current_env w]
  /\ (exists rc,
        actions (trace r.2)
        = Subprocess (pip_cmd_current_env w) rc
          :: (if rc =? 0 then [FileWrite "verify_install.py" code] else [])
        /\ exit_status r.1 = (if rc =? 0 then 0 else 1))
  /\ ~ In (conda_create_cmd) (subprocess_calls (trace r.2)).
Proof.
  intros Hiso Hge. cbv zeta.
  assert (Hcalls : subprocess_calls (trace (run w fs).2) = [pip_cmd_current_env w]
          /\ exists rc,
               actions (trace (run w fs).2)
               = Subprocess (pip_cmd_current_env w) rc
                 :: (if rc =? 0 then [FileWrite "verify_install.py" code] else [])
               /\ exit_status (run w fs).1 = (if rc =? 0 then 0 else 1)).
  { unfold_script. rewrite Hiso. cbn.
    rewrite (version_test_at_least _ Hge). cbn.
    destruct (spawn w (pip_cmd_current_env w) fs) as [rc fs'] eqn:Hspawn.
    destruct (rc =? 0) eqn:Hrc; cbn.
    - split; [reflexivity |]. exists rc. rewrite Hrc. split; reflexivity.
    - split; [reflexivity |]. exists rc. rewrite Hrc. split; reflexivity. }
  destruct Hcalls as [Hcalls Hactions].
  split; [exact Hcalls | split; [exact Hactions |]].
  rewrite Hcalls. intros [Heq | []]. discriminate Heq.
Qed.

(** A run inside a venv on Python 3.12.1. *)
Lemma isolated_run_spawns_only_installer_witness :
  let w := Sample.in_venv Sample.py_3_12 in
  let r := run w Sample.stale_files in
  is_virtual_env w = true
  /\ Spec.version_at_least (sys_version_info w) 3 10
  /\ subprocess_calls (trace r.2)
     = [["/home/lab/.venv/bin/python3"; "-m"; "pip"; "install";
         "pennylane>=0.38"; "pennylane-qiskit"; "numpy>=2.3.5"; "stim";
         "matplotlib"; "jupyter"]].
Proof.
  cbv zeta.
  assert (Hiso : is_virtual_env (Sample.in_venv Sample.py_3_12) = true)
    by reflexivity.
  assert (Hge : Spec.version_at_least
                  (sys_version_info (Sample.in_venv Sample.py_3_12)) 3 10)
    by (right; simpl; lia).
  split; [exact Hiso | split; [exact Hge |]].
  exact (proj1 (isolated_run_spawns_only_installer
                  (Sample.in_venv Sample.py_3_12) Sample.stale_files Hiso Hge)).
Defined.

(** ** The fallback path *)

(** C2 fails on the code.  On the system interpreter, version 3.9, with the
    environment manager installed and every command bound to succeed, the
    version check ends the run with exit status 1: no subprocess is spawned,
    the environment creation included, although [main] says of this check
    that a new environment is created anyway. *)
Lemma old_system_python_blocks_creation :
  let w := Sample.system_python Sample.py_3_9 Sample.conda_path in
  let r := run w ∅ in
  is_virtual_env w = false
  /\ truthy (shutil_which w "conda") = true
  /\ r.1 = Raised (SystemExit 1)
  /\ exit_status r.1 = 1
  /\ subprocess_calls (trace r.2) = []
  /\ ~ In "    No active virtual environment detected." (printed (trace r.2)).
Proof.
  cbv zeta. repeat split; try reflexivity.
  vm_compute. intros H. repeat destruct H as [H | H]; try discriminate H.
  exact H.
Qed.

(** Without conda on the search path the fallback spawns no subprocess,
    writes nothing and ends with exit status 1, at every version.  The
    remediations are printed by the creator, which the run enters only once
    the version check has returned: from 3.10 on they are the last lines
    printed. *)
Lemma no_manager_run_exits (w : process) (fs : gmap string string) :
  is_virtual_env w = false ->
  shutil_which w "conda" = None ->
  let r := run w fs in
  subprocess_calls (trace r.2) = []
  /\ file_writes (trace r.2) = []
  /\ r.1 = Raised (SystemExit 1)
  /\ exit_status r.1 = 1
  /\ (Spec.version_at_least (sys_version_info w) 3 10 ->
      exists before,
        printed (trace r.2)
        = before
          ++ [nl +:+ "[!!] ERROR: No active venv found AND Conda is not installed.";
              "    Please either:"]
          ++ Spec.remediations).
Proof.
  intros Hsys Hwhich. cbv zeta. unfold_script. rewrite Hsys. cbn.
  destruct (version_below_or_at_least (sys_version_info w) 3 10) as [Hlt | Hge].
  - rewrite (version_test_below _ Hlt). cbn.
    repeat (split; [reflexivity |]).
    intros Hge. exfalso.
    unfold Spec.version_below in Hlt. unfold Spec.version_at_least in Hge. lia.
  - rewrite (version_test_at_least _ Hge). cbn. rewrite Hwhich. cbn.
    repeat (split; [reflexivity |]).
    intros _. eexists (_ :: _ :: _ :: _ :: _ :: _ :: _ :: []). reflexivity.
Qed.

(** A run on the system Python 3.12.1 of a machine without conda. *)
Lemma no_manager_run_exits_witness :
  let w := Sample.system_python Sample.py_3_12 None in
  let r := run w ∅ in
  is_virtual_env w = false
  /\ shutil_which w "conda" = None
  /\ subprocess_calls (trace r.2) = []
  /\ exit_status r.1 = 1.
Proof.
  cbv zeta.
  assert (Hsys : is_virtual_env (Sample.system_python Sample.py_3_12 None) = false)
    by reflexivity.
  assert (Hwhich : shutil_which (Sample.system_python Sample.py_3_12 None) "conda"
                   = None) by reflexivity.
  split; [exact Hsys | split; [exact Hwhich |]].
  destruct (no_manager_run_exits
              (Sample.system_python Sample.py_3_12 None) ∅ Hsys Hwhich)
    as (Hcalls & _ & _ & Hstatus & _).
  split; [exact Hcalls | exact Hstatus].
Defined.

(** C5 fails on the code.  On the system interpreter, version 3.9, without
    conda on the search path, the version check ends the run with exit
    status 1 before the creator is entered: no subprocess is spawned, but
    neither of the two remediations is printed, although [main] says of this
    check that a new environment is created anyway. *)
Lemma old_system_python_prints_no_remediation :
  let w := Sample.system_python Sample.py_3_9 None in
  let r := run w ∅ in
  is_virtual_env w = false
  /\ shutil_which w "conda" = None
  /\ r.1 = Raised (SystemExit 1)
  /\ exit_status r.1 = 1
  /\ subprocess_calls (trace r.2) = []
  /\ forall line, In line Spec.remediations -> ~ In line (printed (trace r.2)).
Proof.
  cbv zeta. repeat split; try reflexivity.
  intros line Hline. vm_compute in Hline. vm_compute.
  intros Hprinted.
  repeat destruct Hline as [Hline | Hline]; try contradiction; subst line;
    repeat destruct Hprinted as [Hprinted | Hprinted];
    try discriminate Hprinted; try contradiction.
Qed.

(** C6 fails on the code.  On the system interpreter, version 3.9, with
    conda on the search path and every command bound to return 0, the
    creation included, the version check ends the run with exit status 1:
    the run spawns no subprocess at all, where two are due, and writes no
    script, although [main] says of this check that a new environment is
    created anyway. *)
Lemma old_system_python_spawns_nothing :
  let w := Sample.system_python Sample.py_3_9 Sample.conda_path in
  let r := run w Sample.stale_files in
  is_virtual_env w = false
  /\ truthy (shutil_which w "conda") = true
  /\ (spawn w conda_create_cmd Sample.stale_files).1 = 0
  /\ exit_status r.1 = 1
  /\ subprocess_calls (trace r.2) = []
  /\ subprocess_calls (trace r.2) <> [conda_create_cmd; pip_cmd_conda_env]
  /\ file_writes (trace r.2) = []
  /\ files r.2 = Sample.stale_files.
Proof.
  cbv zeta. repeat split; try reflexivity.
  vm_compute. discriminate.
Qed.

(** From version 3.10 on, when the detector answers [false], conda is on
    the search path and the creation returns 0, the run spawns exactly two
    subprocesses, the creation and then the installer routed through the
    manager; the verification script is written after both, and only when
    the installer returned 0. *)
Lemma created_env_run_spawns_two
    (w : process) (fs fs1 : gmap string string) :
  is_virtual_env w = false ->
  truthy (shutil_which w "conda") = true ->
  Spec.version_at_least (sys_version_info w) 3 10 ->
  spawn w conda_create_cmd fs = (0, fs1) ->
  let r := run w fs in
  subprocess_calls (trace r.2) = [conda_create_cmd; pip_cmd_conda_env]
  /\ exists rc,
       actions (trace r.2)
       = [Subprocess conda_create_cmd 0; Subprocess pip_cmd_conda_env rc]
         ++ (if rc =? 0 then [FileWrite "verify_install.py" code] else [])
       /\ exit_status r.1 = (if rc =? 0 then 0 else 1).
Proof.
  intros Hsys Hwhich Hge Hcreate. cbv zeta. unfold_script. rewrite Hsys. cbn.
  rewrite (version_test_at_least _ Hge). cbn. rewrite Hwhich. cbn.
  rewrite Hcreate. cbn.
  destruct (spawn w pip_cmd_conda_env fs1) as [rc2 fs2] eqn:Hinstall.
  destruct (rc2 =? 0) eqn:Hrc2; cbn.
  - destruct (platform_system w =? "Windows")%string; cbn;
      (split; [reflexivity |]); exists rc2; rewrite Hrc2; split; reflexivity.
  - split; [reflexivity |]. exists rc2. rewrite Hrc2. split; reflexivity.
Qed.

(** A run on the system Python 3.12.1 of a machine with conda, where every
    command succeeds. *)
Lemma created_env_run_spawns_two_witness :
  let w := Sample.system_python Sample.py_3_12 Sample.conda_path in
  let r := run w ∅ in
  is_virtual_env w = false
  /\ truthy (shutil_which w "conda") = true
  /\ Spec.version_at_least (sys_version_info w) 3 10
  /\ spawn w conda_create_cmd ∅ = (0, ∅)
  /\ subprocess_calls (trace r.2)
     = [["conda"; "create"; "-n"; "pennylane_lab"; "python=3.13"; "-y"];
        ["conda"; "run"; "-n"; "pennylane_lab"; "pip"; "install";
         "pennylane>=0.38"; "pennylane-qiskit"; "numpy>=2.3.5"; "stim";
         "matplotlib"; "jupyter"]].
Proof.
  cbv zeta.
  assert (Hsys : is_virtual_env
                   (Sample.system_python Sample.py_3_12 Sample.conda_path) = false)
    by reflexivity.
  assert (Hwhich : truthy (shutil_which
                     (Sample.system_python Sample.py_3_12 Sample.conda_path)
                     "conda") = true) by reflexivity.
  assert (Hge : Spec.version_at_least
                  (sys_version_info
                     (Sample.system_python Sample.py_3_12 Sample.conda_path)) 3 10)
    by (right; simpl; lia).
  assert (Hcreate : spawn (Sample.system_python Sample.py_3_12 Sample.conda_path)
                      conda_create_cmd ∅ = (0, ∅)) by reflexivity.
  split; [exact Hsys | split; [exact Hwhich | split; [exact Hge |]]].
  split; [exact Hcreate |].
  exact (proj1 (created_env_run_spawns_two _ ∅ ∅ Hsys Hwhich Hge Hcreate)).
Defined.

(** ** The verification script *)

(** Opening for writing and then writing leaves exactly the data written,
    whatever the file held. *)
Lemma open_w_then_write (fs : gmap string string) (path data : string) :
  alter (fun held => held +:+ data) path (<[path := EmptyString]> fs)
  = <[path := data]> fs.
Proof. rewrite alter_insert_eq. reflexivity. Qed.

Lemma create_verification_script_spec (s : state) :
  create_verification_script s
  = (Returned tt,
     {| trace := (trace s
                  ++ [Stdout (nl +:+ "[+] Creating verification script (verify_install.py)...")])
                 ++ [FileWrite "verify_install.py" code];
        files := <["verify_install.py" := code]> (files s) |}).
Proof.
  unfold_script. cbn. rewrite open_w_then_write. reflexivity.
Qed.

(** C7.  On every run that ends successfully, whichever branch [main] took
    and whatever the file store held before and after the subprocesses,
    exactly one file is written, verify_install.py, with the text [code],
    and at the end that file holds exactly [code]. *)
Theorem successful_run_writes_code (w : process) (fs : gmap string string) :
  (run w fs).1 = Returned tt ->
  file_writes (trace (run w fs).2) = [("verify_install.py", code)]
  /\ files (run w fs).2 !! "verify_install.py" = Some code.
Proof.
  unfold_script.
  destruct (is_virtual_env w); cbn;
    (destruct (version_below_or_at_least (sys_version_info w) 3 10) as [Hlt | Hge];
     [ rewrite (version_test_below _ Hlt); cbn; discriminate
     | rewrite (version_test_at_least _ Hge); cbn ]).
  - destruct (spawn w (pip_cmd_current_env w) fs) as [rc fs1].
    destruct (rc =? 0); cbn; [| discriminate].
    intros _. rewrite open_w_then_write, lookup_insert_eq. split; reflexivity.
  - destruct (truthy (shutil_which w "conda")); cbn; [| discriminate].
    destruct (spawn w conda_create_cmd fs) as [rc1 fs1].
    destruct (rc1 =? 0); cbn; [| discriminate].
    destruct (spawn w pip_cmd_conda_env fs1) as [rc2 fs2].
    destruct (rc2 =? 0); cbn; [| discriminate].
    destruct (platform_system w =? "Windows")%string; cbn;
      intros _; rewrite open_w_then_write, lookup_insert_eq; split; reflexivity.
Qed.

(** Two successful runs, one per branch, both started where an older
    verify_install.py exists. *)
Lemma successful_run_writes_code_witness :
  let in_place := run (Sample.in_venv Sample.py_3_12) Sample.stale_files in
  let fallback :=
    run (Sample.system_python Sample.py_3_12 Sample.conda_path) Sample.stale_files in
  (in_place.1 = Returned tt /\ fallback.1 = Returned tt)
  /\ Sample.stale_files !! "verify_install.py" = Some "print('old')"
  /\ files in_place.2 !! "verify_install.py" = Some code
  /\ files fallback.2 !! "verify_install.py" = Some code.
Proof.
  cbv zeta.
  assert (Hin_place : (run (Sample.in_venv Sample.py_3_12) Sample.stale_files).1
                      = Returned tt) by reflexivity.
  assert (Hfallback : (run (Sample.system_python Sample.py_3_12 Sample.conda_path)
                         Sample.stale_files).1 = Returned tt) by reflexivity.
  split; [split; [exact Hin_place | exact Hfallback] |].
  split; [reflexivity |].
  split.
  - exact (proj2 (successful_run_writes_code _ _ Hin_place)).
  - exact (proj2 (successful_run_writes_code _ _ Hfallback)).
Defined.

(** ** The branch in which the creator declines *)

Lemma actions_app (t u : list event) : actions (t ++ u) = actions t ++ actions u.
Proof. apply List.filter_app. Qed.

Lemma printed_app (t u : list event) : printed (t ++ u) = printed t ++ printed u.
Proof. apply omap_app. Qed.

(** C8.  In the fallback branch of [main], when the version check has
    returned and the creator then returns [False], the branch returns
    normally right there (exit status 0): the detector had answered [true]
    inside the creator, the file store is as it was, no subprocess was
    spawned and no file written, and the only lines printed are the status
    line, the detected version and the three lines of the creator, none of
    them a completion message. *)
Theorem declined_creation_ends_silently (w : process) (s s1 s2 : state) :
  (print "Status: System python detected (unsafe). initializing Conda flow.";;
   check_python_version w) s = (Returned tt, s1) ->
  create_conda_env_if_needed w s1 = (Returned false, s2) ->
  main_conda_flow w s = (Returned tt, s2)
  /\ exit_status (main_conda_flow w s).1 = 0
  /\ is_virtual_env w = true
  /\ files s2 = files s
  /\ actions (trace s2) = actions (trace s)
  /\ exists detected,
       printed (trace s2)
       = printed (trace s)
         ++ ["Status: System python detected (unsafe). initializing Conda flow.";
             detected;
             nl +:+ "[+] Checking for existing environment...";
             "    Active environment detected (" +:+ sys_prefix w +:+ ").";
             "    Skipping new environment creation."].
Proof.
  intros Hcheck Hcreate.
  assert (Hflow : main_conda_flow w s = (Returned tt, s2)).
  { unfold main_conda_flow. unfold mbind, M_bind in *.
    destruct (print _ s) as [[[] | e] s0]; [| discriminate Hcheck].
    rewrite Hcheck, Hcreate. reflexivity. }
  split; [exact Hflow | split; [rewrite Hflow; reflexivity |]].
  unfold_script. cbn in Hcheck.
  destruct (version_below_or_at_least (sys_version_info w) 3 10) as [Hlt | Hge].
  { rewrite (version_test_below _ Hlt) in Hcheck. discriminate Hcheck. }
  rewrite (version_test_at_least _ Hge) in Hcheck.
  injection Hcheck as <-. cbn in Hcreate.
  destruct (is_virtual_env w).
  - injection Hcreate as <-. cbn.
    split; [reflexivity | split; [reflexivity |]].
    rewrite !actions_app, !printed_app. cbn. rewrite !app_nil_r.
    split; [reflexivity |]. eexists. rewrite <- !app_assoc. reflexivity.
  - exfalso. cbn in Hcreate.
    destruct (truthy (shutil_which w "conda")); cbn in Hcreate;
      [| discriminate Hcreate].
    destruct (spawn w conda_create_cmd _) as [rc fs1].
    destruct (rc =? 0); cbn in Hcreate; discriminate Hcreate.
Qed.

(** The fallback branch entered from inside a venv. *)
Lemma declined_creation_ends_silently_witness :
  let w := Sample.in_venv Sample.py_3_12 in
  let s := {| trace := []; files := Sample.stale_files |} in
  exists s2,
    create_conda_env_if_needed w
      {| trace := [Stdout "Status: System python detected (unsafe). initializing Conda flow.";
                   Stdout "    Current Python: 3.12.1"];
         files := Sample.stale_files |}
    = (Returned false, s2)
    /\ main_conda_flow w s = (Returned tt, s2)
    /\ files s2 = Sample.stale_files
    /\ actions (trace s2) = [].
Proof.
  cbv zeta. eexists.
  assert (Hcheck :
    (print "Status: System python detected (unsafe). initializing Conda flow.";;
     check_python_version (Sample.in_venv Sample.py_3_12))
      {| trace := []; files := Sample.stale_files |}
    = (Returned tt,
       {| trace := [Stdout "Status: System python detected (unsafe). initializing Conda flow.";
                    Stdout "    Current Python: 3.12.1"];
          files := Sample.stale_files |})) by reflexivity.
  assert (Hcreate :
    create_conda_env_if_needed (Sample.in_venv Sample.py_3_12)
      {| trace := [Stdout "Status: System python detected (unsafe). initializing Conda flow.";
                   Stdout "    Current Python: 3.12.1"];
         files := Sample.stale_files |}
    = (Returned false,
       {| trace := [Stdout "Status: System python detected (unsafe). initializing Conda flow.";
                    Stdout "    Current Python: 3.12.1";
                    Stdout (nl +:+ "[+] Checking for existing environment...");
                    Stdout "    Active environment detected (/home/lab/.venv).";
                    Stdout "    Skipping new environment creation."];
          files := Sample.stale_files |})) by reflexivity.
  split; [exact Hcreate |].
  destruct (declined_creation_ends_silently _ _ _ _ Hcheck Hcreate)
    as (Hflow & _ & _ & Hfiles & Hactions & _).
  split; [exact Hflow | split; [exact Hfiles | exact Hactions]].
Defined.

(** ** The command lines *)


(** * Further properties of [setup.py] *)

(** ** Case analysis of a run *)

(** The answers of the outside world that a run started in [fs] may ask
    for: those of the three commands, each started in the file store the
    one before it left. *)
Ltac name_spawns w fs :=
  destruct (spawn w (pip_cmd_current_env w) fs) as [rc_pip fs_pip] eqn:Hpip;
  destruct (spawn w conda_create_cmd fs) as [rc_create fs_create] eqn:Hcreate;
  destruct (spawn w pip_cmd_conda_env fs_create) as [rc_routed fs_routed]
    eqn:Hrouted.

(** One step of the case analysis of a run: the next answer that the script
    branches on. *)
Ltac run_step :=
  first
    [ match goal with
      | H : spawn _ _ _ = (_, _) |- _ => rewrite H
      end
    | match goal with
      | |- context [(?rc =? 0)] =>
          is_var rc; let Hrc := fresh "H" rc in destruct (rc =? 0) eqn:Hrc
      | |- context [truthy ?o] =>
          let Hwhich := fresh "Hwhich" in destruct (truthy o) eqn:Hwhich
      | |- context [(platform_system ?w =? "Windows")%string] =>
          destruct (platform_system w =? "Windows")%string
      end ];
  cbn.

(** The case analysis of [run w fs]: the detector, the version test, then
    every answer of the outside world.  The run is first named, so that the
    analysis goes through it once, and only then put back in the goal. *)
Ltac run_cases w fs :=
  name_spawns w fs;
  let ending := fresh "ending" in
  let final := fresh "final" in
  let Hrun := fresh "Hrun" in
  destruct (run w fs) as [ending final] eqn:Hrun; revert Hrun;
  unfold_script;
  let Hdetect := fresh "Hdetect" in
  let Hlt := fresh "Hlt" in
  let Hge := fresh "Hge" in
  destruct (is_virtual_env w) eqn:Hdetect; cbn;
  (destruct (version_below_or_at_least (sys_version_info w) 3 10) as [Hlt | Hge];
   [ rewrite (version_test_below _ Hlt)
   | rewrite (version_test_at_least _ Hge) ]; cbn);
  repeat run_step;
  intros [= <- <-]; simpl.

(** A list given by its elements, split before its last element: the
    elements before it are found by trying the lengths in turn, [tac]
    closing the goal once they are chosen. *)
Ltac split_last_then tac :=
  first
    [ exists []; tac
    | eexists [_]; tac
    | eexists [_; _]; tac
    | eexists [_; _; _]; tac
    | eexists [_; _; _; _]; tac
    | eexists [_; _; _; _; _]; tac
    | eexists [_; _; _; _; _; _]; tac
    | eexists [_; _; _; _; _; _; _]; tac
    | eexists [_; _; _; _; _; _; _; _]; tac
    | eexists [_; _; _; _; _; _; _; _; _]; tac
    | eexists [_; _; _; _; _; _; _; _; _; _]; tac ].

(** Membership in a list given by its elements. *)
Ltac find_in_list := solve [repeat (first [left; reflexivity | right])].

(** ** Outcomes and the file store *)

(** X1.  How a run ended tells what became of the file store.  A run that
    returns has written exactly one file, verify_install.py with the text
    [code], onto the file store the subprocesses left: the script itself
    changes no other path.  A run that ends by SystemExit ends with code 1,
    has written nothing, and leaves the file store as the subprocesses left
    it. *)
Theorem run_file_store_by_ending (w : process) (fs : gmap string string) :
  let r := run w fs in
  let left_by_commands := Account.replay w (subprocess_calls (trace r.2)) fs in
  (r.1 = Returned tt ->
   file_writes (trace r.2) = [("verify_install.py", code)]
   /\ files r.2 = <["verify_install.py" := code]> left_by_commands)
  /\ (forall status,
        r.1 = Raised (SystemExit status) ->
        status = 1
        /\ file_writes (trace r.2) = []
        /\ files r.2 = left_by_commands).
Proof.
  cbv zeta. unfold Account.replay. run_cases w fs;
    rewrite ?Hpip, ?Hcreate; cbn; rewrite ?Hrouted; cbn;
    rewrite ?open_w_then_write;
    (split;
     [ intros Hdone; try discriminate Hdone; split; reflexivity
     | intros status Hexit; try discriminate Hexit;
       injection Hexit as <-; repeat split; reflexivity ]).
Qed.

(** A run that returns over an older script, and a run that exits because
    the routed installer failed: the log of the last command is there, the
    script is not. *)
Lemma run_file_store_by_ending_witness :
  let good := run (Sample.in_venv Sample.py_3_12) Sample.stale_files in
  let bad :=
    run (Sample2.flaky "/usr" Sample.conda_path [pip_cmd_conda_env]) ∅ in
  (good.1 = Returned tt /\ bad.1 = Raised (SystemExit 1))
  /\ files good.2 = <["verify_install.py" := code]> Sample.stale_files
  /\ file_writes (trace bad.2) = []
  /\ files bad.2 !! "verify_install.py" = None
  /\ files bad.2 !! "command.log" = Some (String.concat " " pip_cmd_conda_env).
Proof.
  cbv zeta.
  assert (Hgood : (run (Sample.in_venv Sample.py_3_12) Sample.stale_files).1
                  = Returned tt) by reflexivity.
  assert (Hbad : (run (Sample2.flaky "/usr" Sample.conda_path
                         [pip_cmd_conda_env]) ∅).1
                 = Raised (SystemExit 1)) by reflexivity.
  split; [split; [exact Hgood | exact Hbad] |].
  destruct (proj1 (run_file_store_by_ending _ _) Hgood) as [_ Hstore].
  destruct (proj2 (run_file_store_by_ending _ _) 1 Hbad)
    as (_ & Hnone & Hleft).
  split; [exact Hstore | split; [exact Hnone |]].
  rewrite Hleft. split; vm_compute; reflexivity.
Defined.

(** ** Failing subprocesses *)

(** X2.  A subprocess that returns a non-zero code is the last action of the
    run: the run ends by SystemExit(1), nothing is spawned or written after
    it (no retry, no rollback), and the last line printed is an error
    line. *)
Theorem failed_subprocess_ends_run
    (w : process) (fs : gmap string string) (argv : list string) (rc : Z) :
  In (Subprocess argv rc) (trace (run w fs).2) ->
  rc <> 0 ->
  (run w fs).1 = Raised (SystemExit 1)
  /\ (exists before,
        actions (trace (run w fs).2) = before ++ [Subprocess argv rc])
  /\ exists earlier message,
       printed (trace (run w fs).2) = earlier ++ [message]
       /\ Account.is_error_line message = true.
Proof.
  run_cases w fs; intros Hin Hfailed;
    repeat match goal with
           | H : (_ =? 0) = true |- _ => apply Z.eqb_eq in H; subst
           end;
    repeat (destruct Hin as [Hin | Hin];
            [ try discriminate Hin;
              try (injection Hin as <- <-; try contradiction) |]);
    try contradiction;
    (split; [reflexivity | split;
       [ split_last_then ltac:(idtac; reflexivity)
       | split_last_then ltac:(idtac; eexists; split; reflexivity) ]]).
Qed.

(** A run in which the installer routed through conda fails after the
    creation succeeded. *)
Lemma failed_subprocess_ends_run_witness :
  let w := Sample2.flaky "/usr" Sample.conda_path [pip_cmd_conda_env] in
  In (Subprocess pip_cmd_conda_env 2) (trace (run w ∅).2)
  /\ 2 <> 0
  /\ (run w ∅).1 = Raised (SystemExit 1)
  /\ exists before,
       actions (trace (run w ∅).2) = before ++ [Subprocess pip_cmd_conda_env 2].
Proof.
  cbv zeta.
  assert (Hin : In (Subprocess pip_cmd_conda_env 2)
                  (trace (run (Sample2.flaky "/usr" Sample.conda_path
                                 [pip_cmd_conda_env]) ∅).2)).
  { vm_compute. find_in_list. }
  assert (Hfailed : 2 <> 0) by lia.
  split; [exact Hin | split; [exact Hfailed |]].
  destruct (failed_subprocess_ends_run _ _ _ _ Hin Hfailed)
    as (Hexit & Hlast & _).
  split; [exact Hexit | exact Hlast].
Defined.

(** ** The two branches do not mix *)



(** ** The creator *)

(** X4.  What the way the creator ended tells, from any state.  When it
    returns [True], the detector answered [false], conda was found and the
    creation, its one subprocess, returned 0.  When it returns [False], the
    detector answered [true], nothing was spawned and the file store is as
    it was.  When it ends by SystemExit, the code is 1, the detector
    answered [false], and either conda was not found and nothing was
    spawned, or the creation, its one subprocess, returned a non-zero
    code. *)
Theorem create_conda_env_if_needed_by_ending
    (w : process) (s s' : state) (o : outcome bool) :
  create_conda_env_if_needed w s = (o, s') ->
  (o = Returned true ->
   is_virtual_env w = false
   /\ truthy (shutil_which w "conda") = true
   /\ spawn w conda_create_cmd (files s) = (0, files s')
   /\ actions (trace s') = actions (trace s) ++ [Subprocess conda_create_cmd 0])
  /\ (o = Returned false ->
      is_virtual_env w = true
      /\ files s' = files s
      /\ actions (trace s') = actions (trace s))
  /\ (forall status,
        o = Raised (SystemExit status) ->
        status = 1
        /\ is_virtual_env w = false
        /\ (truthy (shutil_which w "conda") = false
            /\ actions (trace s') = actions (trace s)
            /\ files s' = files s
            \/ exists rc,
                 rc <> 0
                 /\ truthy (shutil_which w "conda") = true
                 /\ spawn w conda_create_cmd (files s) = (rc, files s')
                 /\ actions (trace s')
                    = actions (trace s) ++ [Subprocess conda_create_cmd rc])).
Proof.
  unfold_script. destruct (is_virtual_env w); cbn.
  - intros [= <- <-]. cbn. rewrite !actions_app. cbn. rewrite !app_nil_r.
    split; [discriminate |]. split; [auto | discriminate].
  - destruct (truthy (shutil_which w "conda")); cbn.
    + destruct (spawn w conda_create_cmd (files s)) as [rc fs1].
      destruct (rc =? 0) eqn:Hrc; cbn; intros [= <- <-]; cbn;
        rewrite !actions_app; cbn; rewrite !app_nil_r.
      * apply Z.eqb_eq in Hrc. subst rc.
        split; [auto |]. split; discriminate.
      * apply Z.eqb_neq in Hrc.
        split; [discriminate |]. split; [discriminate |].
        intros status [= <-]. repeat split. right. exists rc. auto.
    + intros [= <- <-]. cbn. rewrite !actions_app. cbn. rewrite !app_nil_r.
      split; [discriminate |]. split; [discriminate |].
      intros status [= <-]. repeat split. left. auto.
Qed.

(** The creator where the creation fails, and inside a venv. *)
Lemma create_conda_env_if_needed_by_ending_witness :
  let failing := Sample2.flaky "/usr" Sample.conda_path [conda_create_cmd] in
  let s := {| trace := []; files := ∅ |} in
  (exists s', create_conda_env_if_needed failing s = (Raised (SystemExit 1), s')
              /\ actions (trace s') = [Subprocess conda_create_cmd 2])
  /\ exists s', create_conda_env_if_needed (Sample.in_venv Sample.py_3_12) s
                = (Returned false, s')
                /\ actions (trace s') = [].
Proof.
  cbv zeta. split.
  - eexists. split; [reflexivity |]. reflexivity.
  - eexists.
    assert (Hdeclined :
      create_conda_env_if_needed (Sample.in_venv Sample.py_3_12)
        {| trace := []; files := ∅ |}
      = (Returned false,
         {| trace := [Stdout (nl +:+ "[+] Checking for existing environment...");
                      Stdout "    Active environment detected (/home/lab/.venv).";
                      Stdout "    Skipping new environment creation."];
            files := ∅ |})) by reflexivity.
    split; [exact Hdeclined |].
    destruct (create_conda_env_if_needed_by_ending _ _ _ _ Hdeclined)
      as (_ & Hfalse & _).
    destruct (Hfalse eq_refl) as (_ & _ & Hactions). exact Hactions.
Defined.

(** X5.  In a run of [main] the creator never declines: the line announcing
    that the creation is skipped is never printed.  So a run that returns is
    never a silent one: an installer, in place or routed through conda, was
    spawned and returned 0. *)
Theorem run_never_skips_creation (w : process) (fs : gmap string string) :
  ~ In "    Skipping new environment creation." (printed (trace (run w fs).2))
  /\ ((run w fs).1 = Returned tt ->
      exists argv,
        (argv = pip_cmd_current_env w \/ argv = pip_cmd_conda_env)
        /\ In (Subprocess argv 0) (trace (run w fs).2)).
Proof.
  run_cases w fs;
    (split;
     [ intros Hin;
       repeat (destruct Hin as [Hin | Hin]; [discriminate Hin |]); exact Hin
     | try (intros Hdone; discriminate Hdone) ]);
    intros _;
    repeat match goal with
           | H : (_ =? 0) = true |- _ => apply Z.eqb_eq in H; subst
           end.
  - exists (pip_cmd_current_env w). split; [left; reflexivity | find_in_list].
  - exists pip_cmd_conda_env. split; [right; reflexivity | find_in_list].
  - exists pip_cmd_conda_env. split; [right; reflexivity | find_in_list].
Qed.

(** A successful run on the fallback branch. *)
Lemma run_never_skips_creation_witness :
  let w := Sample.system_python Sample.py_3_12 Sample.conda_path in
  (run w ∅).1 = Returned tt
  /\ exists argv,
       (argv = pip_cmd_current_env w \/ argv = pip_cmd_conda_env)
       /\ In (Subprocess argv 0) (trace (run w ∅).2).
Proof.
  cbv zeta.
  assert (Hdone : (run (Sample.system_python Sample.py_3_12 Sample.conda_path) ∅).1
                  = Returned tt) by reflexivity.
  split; [exact Hdone |].
  exact (proj2 (run_never_skips_creation _ ∅) Hdone).
Defined.

(** ** What the detector and the run depend on *)

(** X6.  On an interpreter without the attribute base_prefix the prefix is
    compared with itself: the detector answers [true] exactly when
    CONDA_DEFAULT_ENV is set, so a venv goes undetected there. *)
Theorem is_virtual_env_without_base_prefix (w : process) :
  sys_base_prefix w = None ->
  is_virtual_env w = bool_decide (Spec.marker_present w)
  /\ (os_environ w !! "CONDA_DEFAULT_ENV" = None -> is_virtual_env w = false).
Proof.
  intros Hnone.
  assert (Hsame : is_virtual_env w = bool_decide (Spec.marker_present w)).
  { unfold is_virtual_env, base_prefix_or_prefix, Spec.marker_present.
    rewrite Hnone. cbn.
    rewrite bool_decide_eq_false_2 by (intros Hne; apply Hne; reflexivity).
    cbn. apply bool_decide_ext. apply not_eq_None_Some. }
  split; [exact Hsame |].
  intros Hunset. rewrite Hsame. apply bool_decide_eq_false_2.
  unfold Spec.marker_present. rewrite Hunset. apply is_Some_None.
Qed.

Lemma is_virtual_env_without_base_prefix_witness :
  sys_base_prefix (Sample2.legacy ∅) = None
  /\ os_environ (Sample2.legacy ∅) !! "CONDA_DEFAULT_ENV" = None
  /\ is_virtual_env (Sample2.legacy ∅) = false
  /\ is_virtual_env (Sample2.legacy {[ "CONDA_DEFAULT_ENV" := "base" ]}) = true.
Proof.
  assert (Hnone : sys_base_prefix (Sample2.legacy ∅) = None) by reflexivity.
  assert (Hunset : os_environ (Sample2.legacy ∅) !! "CONDA_DEFAULT_ENV" = None)
    by reflexivity.
  split; [exact Hnone | split; [exact Hunset | split]].
  - exact (proj2 (is_virtual_env_without_base_prefix _ Hnone) Hunset).
  - rewrite (proj1 (is_virtual_env_without_base_prefix
                      (Sample2.legacy {[ "CONDA_DEFAULT_ENV" := "base" ]})
                      eq_refl)).
    reflexivity.
Defined.

(** X7.  A run does not depend on the platform: both arms of the test on
    platform.system() print the same activation line, so the outcome, the
    trace and the file store are those of the same process on any other
    platform. *)
Theorem run_ignores_platform
    (w : process) (name : string) (fs : gmap string string) :
  run (Account.on_platform w name) fs = run w fs.
Proof.
  unfold_script. unfold is_virtual_env, base_prefix_or_prefix,
    pip_cmd_current_env. cbn.
  repeat match goal with
         | |- context [if ?b then _ else _] =>
             match b with
             | (_ =? "Windows")%string => fail 1
             | _ => destruct b
             end
         | |- context [spawn ?v ?c ?f] =>
             destruct (spawn v c f) as [? ?]
         end; cbn; try reflexivity.
  all: destruct (name =? "Windows")%string,
                (platform_system w =? "Windows")%string; reflexivity.
Qed.

(** ** What a run reports *)

(** The classes of lines stay folded while a run is simplified. *)
#[local] Arguments Account.is_error_line : simpl never.
#[local] Arguments Account.is_warning_line : simpl never.

(** X9.  What a run prints tells how it ended.  A run that returns has
    printed one of the two completion messages and no error line; a run that
    ends by SystemExit(1) has printed exactly one error line and no
    completion message.  No run prints a warning line. *)
Theorem run_reports_its_ending (w : process) (fs : gmap string string) :
  let lines := printed (trace (run w fs).2) in
  List.filter Account.is_warning_line lines = []
  /\ ((run w fs).1 = Returned tt
      /\ List.filter Account.is_error_line lines = []
      /\ (exists message,
            In message Account.completion_messages /\ In message lines)
      \/ (run w fs).1 = Raised (SystemExit 1)
         /\ (exists message, List.filter Account.is_error_line lines = [message])
         /\ forall message,
              In message Account.completion_messages -> ~ In message lines).
Proof.
  cbv zeta. run_cases w fs;
    unfold Account.is_error_line, Account.is_warning_line; simpl;
    (split; [reflexivity |]);
    first
      [ left; split; [reflexivity |]; split; [reflexivity |];
        first
          [ exists (nl +:+ "[+] SETUP COMPLETE (In current environment)");
            split; [left; reflexivity | find_in_list]
          | exists (nl +:+ "[+] SETUP COMPLETE (New Conda Env Created)");
            split; [right; left; reflexivity | find_in_list] ]
      | right; split; [reflexivity |]; split; [eexists; reflexivity |];
        intros message Hmessage Hin;
        repeat (destruct Hmessage as [Hmessage | Hmessage];
                [ subst message;
                  repeat (destruct Hin as [Hin | Hin]; [discriminate Hin |]);
                  exact Hin |]);
        exact Hmessage ].
Qed.

(** ** The emitter *)

(** X10.  The emitter, whenever it returns: it has spawned nothing and left
    every other file as it was, and verify_install.py holds exactly [code],
    whatever it held before; a second call that returns changes nothing in
    the file store. *)
Theorem create_verification_script_when_it_returns (s s1 : state) :
  create_verification_script s = (Returned tt, s1) ->
  subprocess_calls (trace s1) = subprocess_calls (trace s)
  /\ files s1 !! "verify_install.py" = Some code
  /\ (forall path, path <> "verify_install.py" ->
                   files s1 !! path = files s !! path)
  /\ forall s2,
       create_verification_script s1 = (Returned tt, s2) ->
       files s2 = files s1.
Proof.
  rewrite create_verification_script_spec. intros [= <-]. cbn.
  split.
  { unfold subprocess_calls. rewrite !omap_app. cbn. rewrite !app_nil_r.
    reflexivity. }
  split; [apply lookup_insert_eq | split].
  { intros path Hother. apply lookup_insert_ne. congruence. }
  intros s2. rewrite create_verification_script_spec. intros [= <-]. cbn.
  apply insert_insert_eq.
Qed.

(** The emitter where an older script and another file exist. *)
Lemma create_verification_script_when_it_returns_witness :
  let s := {| trace := [];
              files := <["notes.txt" := "keep"]> Sample.stale_files |} in
  exists s1,
    create_verification_script s = (Returned tt, s1)
    /\ "notes.txt" <> "verify_install.py"
    /\ files s1 !! "notes.txt" = Some "keep"
    /\ files s1 !! "verify_install.py" = Some code.
Proof.
  cbv zeta. eexists.
  assert (Hother : "notes.txt" <> "verify_install.py") by discriminate.
  assert (Hreturned :
    create_verification_script
      {| trace := []; files := <["notes.txt" := "keep"]> Sample.stale_files |}
    = (Returned tt,
       {| trace := [Stdout (nl +:+ "[+] Creating verification script (verify_install.py)...");
                    FileWrite "verify_install.py" code];
          files := <["verify_install.py" := code]>
                     (<["notes.txt" := "keep"]> Sample.stale_files) |})).
  { rewrite create_verification_script_spec. reflexivity. }
  split; [exact Hreturned | split; [exact Hother |]].
  destruct (create_verification_script_when_it_returns _ _ Hreturned)
    as (_ & Hscript & Hframe & _).
  split; [| exact Hscript].
  rewrite (Hframe "notes.txt" Hother). reflexivity.
Defined.

(** * Properties of [verify_install.py] *)

(** A hypothesis says that a call returned which in fact raised. *)
Ltac refute_return :=
  intros;
  repeat match goal with
         | H : _ /\ _ |- _ => destruct H
         | H : exists _, _ |- _ => destruct H
         end;
  congruence.

(** A line is not among lines that all differ from it. *)
Ltac refute_printed :=
  let Hin := fresh "Hin" in
  intros Hin;
  repeat (destruct Hin as [Hin | Hin]; [discriminate Hin |]);
  contradiction.

(** X11.  The script prints its success line exactly when every call into
    the libraries returns, and it then runs to its end. *)
Theorem script_prints_success_iff_all_return (l : VerifyRun.lab) :
  (In VerifyRun.success_line (VerifyRun.script l).1 <-> VerifyRun.all_return l)
  /\ (VerifyRun.all_return l -> (VerifyRun.script l).2 = VerifyRun.Finished).
Proof.
  unfold VerifyRun.all_return, VerifyRun.script, VerifyRun.main,
    VerifyRun.success_line.
  destruct (VerifyRun.import_pennylane l) as [[] | e1]; cbn;
    [| (split; [split; [refute_printed | refute_return] | refute_return])].
  destruct (VerifyRun.import_pyplot l) as [[] | e2]; cbn;
    [| (split; [split; [refute_printed | refute_return] | refute_return])].
  destruct (VerifyRun.sys_version_words l) as [| version rest]; cbn;
    [(split; [split; [refute_printed | refute_return] | refute_return]) |].
  destruct (VerifyRun.qml_version l) as [release | e3]; cbn;
    [| (split; [split; [refute_printed | refute_return] | refute_return])].
  destruct (VerifyRun.qml_device l) as [[] | e4]; cbn;
    [| (split; [split; [refute_printed | refute_return] | refute_return])].
  destruct (VerifyRun.qml_qnode l) as [[] | e5]; cbn;
    [| (split; [split; [refute_printed | refute_return] | refute_return])].
  destruct (VerifyRun.circuit l) as [result | e6]; cbn.
  - split; [| reflexivity]. split; [| intros _; find_in_list].
    intros _. repeat split; eauto; discriminate.
  - (split; [split; [refute_printed | refute_return] | refute_return]).
Qed.

(** The working installation prints the success line and ends normally. *)
Lemma script_prints_success_iff_all_return_witness :
  VerifyRun.all_return VerifyRun.working
  /\ In VerifyRun.success_line (VerifyRun.script VerifyRun.working).1
  /\ (VerifyRun.script VerifyRun.working).2 = VerifyRun.Finished.
Proof.
  assert (Hall : VerifyRun.all_return VerifyRun.working).
  { unfold VerifyRun.all_return. simpl. repeat split; eauto; discriminate. }
  split; [exact Hall | split].
  - exact (proj2 (proj1 (script_prints_success_iff_all_return _)) Hall).
  - exact (proj2 (script_prints_success_iff_all_return _) Hall).
Defined.

(** X12.  The exit status of the script is 0 or 1, and it is 0 exactly when
    the imports, the two version lines, the device creation and the
    decoration of the circuit succeed.  The execution of the circuit has no
    part in it: when it raises, the error is printed and the status is
    still 0. *)
Theorem script_exit_status_ignores_circuit (l : VerifyRun.lab) :
  let status := VerifyRun.exit_status (VerifyRun.script l).2 in
  (status = 0 \/ status = 1)
  /\ (status = 0
      <-> VerifyRun.import_pennylane l = VerifyRun.Returns tt
          /\ VerifyRun.import_pyplot l = VerifyRun.Returns tt
          /\ VerifyRun.sys_version_words l <> []
          /\ (exists release, VerifyRun.qml_version l = VerifyRun.Returns release)
          /\ VerifyRun.qml_device l = VerifyRun.Returns tt
          /\ VerifyRun.qml_qnode l = VerifyRun.Returns tt)
  /\ forall e,
       status = 0 ->
       VerifyRun.circuit l = VerifyRun.Raises e ->
       exists before,
         (VerifyRun.script l).1 = before ++ ["Error running circuit: " +:+ e].
Proof.
  cbv zeta. unfold VerifyRun.script, VerifyRun.main.
  destruct (VerifyRun.import_pennylane l) as [[] | e1]; cbn;
    [| (split; [right; reflexivity |];
       split; [split; [discriminate | refute_return] | discriminate])].
  destruct (VerifyRun.import_pyplot l) as [[] | e2]; cbn;
    [| (split; [right; reflexivity |];
       split; [split; [discriminate | refute_return] | discriminate])].
  destruct (VerifyRun.sys_version_words l) as [| version rest]; cbn;
    [(split; [right; reflexivity |];
       split; [split; [discriminate | refute_return] | discriminate]) |].
  destruct (VerifyRun.qml_version l) as [release | e3]; cbn;
    [| (split; [right; reflexivity |];
       split; [split; [discriminate | refute_return] | discriminate])].
  destruct (VerifyRun.qml_device l) as [[] | e4]; cbn;
    [| (split; [right; reflexivity |];
       split; [split; [discriminate | refute_return] | discriminate])].
  destruct (VerifyRun.qml_qnode l) as [[] | e5]; cbn;
    [| (split; [right; reflexivity |];
       split; [split; [discriminate | refute_return] | discriminate])].
  destruct (VerifyRun.circuit l) as [result | e6]; cbn;
    (split; [left; reflexivity |]);
    (split; [split; [intros _; repeat split; eauto; try discriminate
                    | reflexivity] |]).
  - intros e _ Hraises. discriminate Hraises.
  - intros e _ Hraises. injection Hraises as ->.
    eexists [_; _; _]. reflexivity.
Qed.

(** An installation whose simulator fails on the circuit: status 0, the
    error as the last line. *)
Lemma script_exit_status_ignores_circuit_witness :
  VerifyRun.exit_status (VerifyRun.script VerifyRun.broken_simulator).2 = 0
  /\ VerifyRun.circuit VerifyRun.broken_simulator
     = VerifyRun.Raises "simulation failed"
  /\ ~ In VerifyRun.success_line (VerifyRun.script VerifyRun.broken_simulator).1
  /\ exists before,
       (VerifyRun.script VerifyRun.broken_simulator).1
       = before ++ ["Error running circuit: simulation failed"].
Proof.
  assert (Hstatus : VerifyRun.exit_status
                      (VerifyRun.script VerifyRun.broken_simulator).2 = 0)
    by reflexivity.
  assert (Hraises : VerifyRun.circuit VerifyRun.broken_simulator
                    = VerifyRun.Raises "simulation failed") by reflexivity.
  split; [exact Hstatus | split; [exact Hraises | split]].
  - vm_compute. intros H.
    repeat (destruct H as [H | H]; [discriminate H |]). exact H.
  - exact (proj2 (proj2 (script_exit_status_ignores_circuit
                           VerifyRun.broken_simulator))
             "simulation failed" Hstatus Hraises).
Defined.
